(** * kubectl-kruise [rollout undo]: resolution, de-duplication and dispatch

    A shallow embedding of [pkg/cmd/rollout/rollout_undo.go] and the
    properties of its two-phase rollback pipeline.

    The command resolves its arguments into resource handles, rolls back the
    workloads among them, collects the workloads that [Rollout] objects
    refer to, resolves those in a second pass and rolls them back too.  A set
    of string keys ([deDuplica]) rejects a workload that is reached twice.

    The collaborators of the command (resource builder, rollbacker lookup,
    dry-run verifier, printer) live outside the file; they are variables of
    the section below, functions of an abstract cluster state [World].  Every
    call to one of them is logged in a trace, and the properties are stated
    on that trace. *)

From Stdlib Require Import ZArith String Ascii.
From stdpp Require Import gmap strings list.

(** ** Data *)

(** [schema.GroupVersionKind]. *)
Record GroupVersionKind := mkGVK {
  Group : string;
  Version : string;
  Kind : string
}.

(** [schema.GroupVersion]. *)
Record GroupVersion := mkGV {
  gv_Group : string;
  gv_Version : string
}.

(** [v1alpha1.WorkloadRef]: what a Rollout says about its workload.  There
    is no namespace in it. *)
Record WorkloadRef := mkWorkloadRef {
  APIVersion : string;
  wr_Kind : string;
  wr_Name : string
}.

(** [v1alpha1.Rollout], reduced to [Spec.ObjectRef.WorkloadRef], the one
    field the command reads.  The model covers Rollout objects whose
    workload reference is set. *)
Record Rollout := mkRollout {
  Spec_ObjectRef_WorkloadRef : WorkloadRef
}.

(** [runtime.Object]: the payload of a handle.  The command only asks
    whether it is a [*v1alpha1.Rollout]. *)
Inductive RuntimeObject :=
| RolloutV1alpha1 (ro : Rollout)
| OtherObject (content : string).

(** [resource.Info]: one resolved handle. *)
Record Info := mkInfo {
  Mapping_GroupVersionKind : GroupVersionKind;
  Namespace : string;
  Name : string;
  Object : option RuntimeObject
}.

(** [cmdutil.DryRunStrategy]. *)
Inductive DryRunStrategy := DryRunNone | DryRunClient | DryRunServer.

(** Go's [error] values, as far as the command builds them: [fmt.Errorf]
    with a constant text, and the aggregate that a visit returns when more
    than one item failed.  Collaborators return values of the same type. *)
#[warnings="-register-all"]
Inductive error :=
| Errorf (format : string)
| Aggregate (errs : list error).

(** [UndoOptions], the fields that [RunUndo] reads. *)
Record UndoOptions := mkUndoOptions {
  ToRevision : Z;
  o_DryRunStrategy : DryRunStrategy;
  Resources : list string;
  o_Namespace : string;
  EnforceNamespace : bool;
  Filenames : list string
}.

(** What one chain [o.Builder()...ResourceTypeOrNameArgs(true, args...)
    ...Do()] asks the resource source for. *)
Record BuilderRequest := mkRequest {
  req_Namespace : string;
  req_EnforceNamespace : bool;
  req_Filenames : list string;
  req_Args : list string
}.

(** The calls that leave the command, in the order they are made. *)
Inductive event :=
| CallDo (req : BuilderRequest)
| CallRollbackerFn (info : Info)
| CallHasSupport (gvk : GroupVersionKind)
| CallRollback (info : Info) (toRevision : Z) (dryRun : DryRunStrategy)
| CallToPrinter (operation : string)
| CallPrintObj (operation : string) (obj : option RuntimeObject)
| Println (line : string).

(** How [RunUndo] ends: it returns an error value ([None] is Go's [nil]),
    or it panics on a nil dereference. *)
Inductive outcome :=
| Returns (err : option error)
| Panics.

(** ** Strings and keys *)

(** [GroupVersionKind.String()]. *)
Definition gvk_String (gvk : GroupVersionKind) : string :=
  Group gvk +:+ "/" +:+ Version gvk +:+ ", Kind=" +:+ Kind gvk.

(** [strings.Count(s, "/")]. *)
Fixpoint count_slash (s : string) : nat :=
  match s with
  | EmptyString => 0
  | String c rest =>
      if Ascii.eqb c "/"%char then S (count_slash rest) else count_slash rest
  end.

(** [s[:i], s[i+1:]] for [i := strings.Index(s, "/")]. *)
Fixpoint cut_slash (s : string) : option (string * string) :=
  match s with
  | EmptyString => None
  | String c rest =>
      if Ascii.eqb c "/"%char then Some (EmptyString, rest)
      else match cut_slash rest with
           | Some (a, b) => Some (String c a, b)
           | None => None
           end
  end.

(** [schema.ParseGroupVersion]. *)
Definition ParseGroupVersion (gv : string) : error + GroupVersion :=
  if bool_decide (gv = "") || bool_decide (gv = "/") then inr (mkGV "" "")
  else match count_slash gv with
       | 0 => inr (mkGV "" gv)
       | 1 => match cut_slash gv with
              | Some (g, v) => inr (mkGV g v)
              | None => inr (mkGV "" gv)
              end
       | _ => inl (Errorf ("unexpected GroupVersion string: " +:+ gv))
       end.

(** The key of the direct branch:
    [info.Mapping.GroupVersionKind.String() + info.Name]. *)
Definition deDuplicaKey (gvk : GroupVersionKind) (name : string) : string :=
  gvk_String gvk +:+ name.

(** [workloadRef.Kind + "." + gv.Version + "." + gv.Group + "/" +
    workloadRef.Name]: the argument handed to the second resolution. *)
Definition resourceIdentifier (gv : GroupVersion) (ref : WorkloadRef) : string :=
  wr_Kind ref +:+ "." +:+ gv_Version gv +:+ "." +:+ gv_Group gv +:+ "/" +:+ wr_Name ref.

(** The test that opens the visitor: is the handle a Rollout? *)
Definition isRollout (info : Info) : bool :=
  bool_decide (Group (Mapping_GroupVersionKind info) = "rollouts.kruise.io") &&
  bool_decide (Kind (Mapping_GroupVersionKind info) = "Rollout").

(** The text printed and returned when a key is met again. *)
Definition msgDuplicate : string :=
  "出现重复了，不允许在一次rollout undo命令中对同一个对象多次undo".

Definition errDuplicate : error := Errorf msgDuplicate.

(** [errs] of the continue-on-error visitor, folded into what [Visit]
    returns: nothing, the single error, or an aggregate. *)
Definition aggregate (errs : list error) : option error :=
  match errs with
  | [] => None
  | [e] => Some e
  | _ => Some (Aggregate errs)
  end.

(** ** The command *)

(** The local state of one [RunUndo]: the cluster, the calls made so far and
    the two variables that the visitor closure captures and mutates. *)
Record State {World : Type} := mkState {
  world : World;
  trace : list event;
  deDuplica : gset string;
  refResources : list string
}.
Arguments State : clear implicits.
Arguments mkState {World} _ _ _ _.

(** *** Collaborators *)

(** What the command calls outside the file, as functions of the cluster
    state:
    - [Do]: a builder chain up to [Do()], giving [r.Err()] or the handles
      that [r.Visit] will deliver, each with the error the source attaches
      to it;
    - [RollbackerFn]: [internalpolymorphichelpers.RollbackerFn], and
      [Rollback], the method of what it returns;
    - [HasSupport]: [o.DryRunVerifier.HasSupport];
    - [ToPrinter]: [o.ToPrinter], and [PrintObj]: [printer.PrintObj(obj,
      o.Out)];
    - [Error]: the [Error()] method of an error value. *)
Record Collaborators {World : Type} := mkCollaborators {
  Rollbacker : Type;
  Printer : Type;
  Do : BuilderRequest → World → (error + list (Info * option error)) * World;
  RollbackerFn : Info → World → (error + Rollbacker) * World;
  Rollback :
    Rollbacker → option RuntimeObject → Z → DryRunStrategy → World →
    (error + string) * World;
  HasSupport : GroupVersionKind → World → option error * World;
  ToPrinter : string → World → (error + Printer) * World;
  PrintObj : Printer → option RuntimeObject → World → option error * World;
  Error : error → string
}.
Arguments Collaborators : clear implicits.

Section Command.

Context {World : Type} (K : Collaborators World) (o : UndoOptions).

(** *** State passing *)

Definition M (A : Type) : Type := State World → A * State World.

Definition ret {A} (a : A) : M A := λ st, (a, st).

Definition bind {A B} (m : M A) (k : A → M B) : M B :=
  λ st, let (a, st') := m st in k a st'.

Notation "x <- m ;; k" := (bind m (λ x, k))
  (at level 100, m at next level, right associativity).

(** A call to a collaborator: logged, then run on the cluster. *)
Definition call {A} (ev : event) (f : World → A * World) : M A :=
  λ st, let (a, w) := f (world st) in
        (a, mkState w (trace st ++ [ev]) (deDuplica st) (refResources st)).

(** [fmt.Println]. *)
Definition println (line : string) : M unit :=
  λ st, (tt, mkState (world st) (trace st ++ [Println line]) (deDuplica st) (refResources st)).

(** [deDuplica[key] = struct{}{}]. *)
Definition reserve (key : string) : M unit :=
  λ st, (tt, mkState (world st) (trace st) ({[key]} ∪ deDuplica st) (refResources st)).

(** [refResources = append(refResources, id)]. *)
Definition enqueue (id : string) : M unit :=
  λ st, (tt, mkState (world st) (trace st) (deDuplica st) (refResources st ++ [id])).

(** [_, ok := deDuplica[key]]. *)
Definition reserved (key : string) : M bool :=
  λ st, (bool_decide (key ∈ deDuplica st), st).

(** *** [undoFunc] *)

Definition undoFunc (info : Info) (err : option error) : M (option error) :=
  match err with
  | Some e => ret (Some e)
  | None =>
    r <- call (CallRollbackerFn info) (RollbackerFn K info) ;;
    match r with
    | inl e => ret (Some e)
    | inr rollbacker =>
      chk <- match o_DryRunStrategy o with
             | DryRunServer =>
                 call (CallHasSupport (Mapping_GroupVersionKind info))
                      (HasSupport K (Mapping_GroupVersionKind info))
             | _ => ret None
             end ;;
      match chk with
      | Some e => ret (Some e)
      | None =>
        r <- call (CallRollback info (ToRevision o) (o_DryRunStrategy o))
                 (Rollback K rollbacker (Object info) (ToRevision o) (o_DryRunStrategy o)) ;;
        match r with
        | inl e => ret (Some e)
        | inr result =>
          p <- call (CallToPrinter result) (ToPrinter K result) ;;
          match p with
          | inl e => ret (Some e)
          | inr printer =>
              call (CallPrintObj result (Object info)) (PrintObj K printer (Object info))
          end
        end
      end
    end
  end.

(** *** The visitor of the first pass *)

Definition visitor (info : Info) (err : option error) : M (option error) :=
  match err with
  | Some e => ret (Some e)
  | None =>
    if isRollout info then
      match Object info with
      | None =>
          _ <- println "Rollout object not found" ;;
          ret (Some (Errorf "Rollout object not found"))
      | Some (OtherObject _) =>
          _ <- println "unsupported version of Rollout" ;;
          ret (Some (Errorf "unsupported version of Rollout"))
      | Some (RolloutV1alpha1 ro) =>
          let workloadRef := Spec_ObjectRef_WorkloadRef ro in
          match ParseGroupVersion (APIVersion workloadRef) with
          | inl e => ret (Some e)
          | inr gv =>
            let gvk := mkGVK (gv_Group gv) (gv_Version gv) (wr_Kind workloadRef) in
            let key := gvk_String gvk +:+ wr_Name workloadRef in
            dup <- reserved key ;;
            if dup : bool then
              _ <- println msgDuplicate ;;
              ret (Some errDuplicate)
            else
              let id := resourceIdentifier gv workloadRef in
              let operation := "references to " +:+ id in
              p <- call (CallToPrinter operation) (ToPrinter K operation) ;;
              match p with
              | inl e => ret (Some e)
              | inr printer =>
                e <- call (CallPrintObj operation (Object info))
                         (PrintObj K printer (Object info)) ;;
                match e with
                | Some e => ret (Some e)
                | None =>
                    _ <- reserve key ;;
                    _ <- enqueue id ;;
                    ret None
                end
              end
          end
      end
    else
      let key := deDuplicaKey (Mapping_GroupVersionKind info) (Name info) in
      dup <- reserved key ;;
      if dup : bool then
        _ <- println msgDuplicate ;;
        ret (Some errDuplicate)
      else
        _ <- reserve key ;;
        undoFunc info None
  end.

(** *** Visiting *)

(** Modelled from the spec: the [Visit] method of the builder's result is
    not part of the file.  With [ContinueOnError()] it hands every handle to
    the function in arrival order, keeps each error the function returns and
    goes on (sections 5 and 7).  [VisitEach] gives the result per handle. *)
Fixpoint VisitEach (items : list (Info * option error))
    (fn : Info → option error → M (option error)) : M (list (option error)) :=
  match items with
  | [] => ret []
  | (info, err) :: rest =>
      r <- fn info err ;;
      rs <- VisitEach rest fn ;;
      ret (r :: rs)
  end.

(** Modelled from the spec: [Visit], missing like [VisitEach]; at the end of
    the visit the recorded errors are combined into one, and a visit without
    errors returns none (section 7). *)
Definition Visit (items : list (Info * option error))
    (fn : Info → option error → M (option error)) : M (option error) :=
  rs <- VisitEach items fn ;;
  ret (aggregate (omap id rs)).

(** *** [RunUndo] *)

Definition request (args : list string) : BuilderRequest :=
  mkRequest (o_Namespace o) (EnforceNamespace o) (Filenames o) args.

Definition initial (w : World) : State World := mkState w [] ∅ [].

(** The state in which the first visit starts, once the first resolution
    has left the cluster in [w]. *)
Definition started (w : World) : State World :=
  mkState w [CallDo (request (Resources o))] ∅ [].

(** The state in which the second visit starts, once the second resolution
    has left the cluster in [w]. *)
Definition restarted (st : State World) (w : World) : State World :=
  mkState w (trace st ++ [CallDo (request (refResources st))])
          (deDuplica st) (refResources st).

Definition RunUndo (w : World) : outcome * State World :=
  let (r, st) := call (CallDo (request (Resources o))) (Do K (request (Resources o))) (initial w) in
  match r with
  | inl e => (Returns (Some e), st)
  | inr items =>
    let (err, st1) := Visit items visitor st in
    if length (refResources st1) <? 1 then (Returns None, st1)
    else
      let (r2, st2) :=
        call (CallDo (request (refResources st1))) (Do K (request (refResources st1))) st1 in
      match r2 with
      | inl e2 => (Returns (Some e2), st2)
      | inr items2 =>
        let (err2, st3) := Visit items2 undoFunc st2 in
        match err, err2 with
        | Some e, Some e2 => (Returns (Some (Errorf (Error K e +:+ "
" +:+ Error K e2))), st3)
        | _, _ => (Panics, st3)
        end
      end
  end.

End Command.

(** The same state with another set of keys. *)
Definition withDeDuplica {World : Type} (D : gset string) (st : State World) : State World :=
  mkState (world st) (trace st) D (refResources st).

(** ** Reading a run *)

(** The key under which a handle is reserved when it is visited as a
    workload. *)
Definition workloadKey (info : Info) : string :=
  deDuplicaKey (Mapping_GroupVersionKind info) (Name info).

(** What a Rollout handle refers to: the key of the referenced workload and
    the identifier queued for the second pass.  [None] when the payload is
    missing, is no Rollout, or has an [apiVersion] that does not parse. *)
Definition target (info : Info) : option (string * string) :=
  match Object info with
  | Some (RolloutV1alpha1 ro) =>
      let ref := Spec_ObjectRef_WorkloadRef ro in
      match ParseGroupVersion (APIVersion ref) with
      | inr gv =>
          Some (deDuplicaKey (mkGVK (gv_Group gv) (gv_Version gv) (wr_Kind ref)) (wr_Name ref),
                resourceIdentifier gv ref)
      | inl _ => None
      end
  | _ => None
  end.

(** The key the first pass looks up for an item, if it gets that far. *)
Definition itemKey (item : Info * option error) : option string :=
  match item.2 with
  | Some _ => None
  | None => if isRollout item.1 then fst <$> target item.1
            else Some (workloadKey item.1)
  end.

(** The item is a Rollout whose reference to [k] went into the queue: its
    visit recorded no error. *)
Definition queues (k : string) (item : Info * option error) (r : option error) : bool :=
  match item.2, r with
  | None, None => isRollout item.1 && bool_decide (fst <$> target item.1 = Some k)
  | _, _ => false
  end.

(** The item is a workload with key [k], named directly. *)
Definition names (k : string) (item : Info * option error) : bool :=
  match item.2 with
  | None => negb (isRollout item.1) && bool_decide (workloadKey item.1 = k)
  | Some _ => false
  end.

(** Visiting the item leaves [k] in the set. *)
Definition reserves (k : string) (item : Info * option error) (r : option error) : bool :=
  names k item || queues k item r.

(** How many references to [k] the first pass queued. *)
Fixpoint queued (k : string) (items : list (Info * option error))
    (rs : list (option error)) : nat :=
  match items, rs with
  | item :: items, r :: rs => (if queues k item r then 1 else 0) + queued k items rs
  | _, _ => 0
  end.

(** The identifier that visiting the item appends to [refResources]. *)
Definition reference (item : Info * option error) (r : option error) : list string :=
  match item.2, r with
  | None, None =>
      if isRollout item.1
      then match target item.1 with Some (_, id) => [id] | None => [] end
      else []
  | _, _ => []
  end.

Fixpoint references (items : list (Info * option error))
    (rs : list (option error)) : list string :=
  match items, rs with
  | item :: items, r :: rs => reference item r ++ references items rs
  | _, _ => []
  end.


Fixpoint count (p : event → bool) (tr : list event) : nat :=
  match tr with
  | [] => 0
  | ev :: tr => (if p ev then 1 else 0) + count p tr
  end.

(** A rollback attempt for key [k] begins: [undoFunc] got a handle and
    looks up its rollbacker. *)
Definition isDispatch (k : string) (ev : event) : bool :=
  match ev with
  | CallRollbackerFn info => bool_decide (workloadKey info = k)
  | _ => false
  end.

(** The [Rollback] method is called on a handle with key [k]. *)
Definition isRollback (k : string) (ev : event) : bool :=
  match ev with
  | CallRollback info _ _ => bool_decide (workloadKey info = k)
  | _ => false
  end.

Definition isDo (ev : event) : bool :=
  match ev with
  | CallDo _ => true
  | _ => false
  end.

Definition dispatches (k : string) (tr : list event) : nat := count (isDispatch k) tr.
Definition rollbacks (k : string) (tr : list event) : nat := count (isRollback k) tr.


(** A line that reports a key met again. *)
Definition isRejection (ev : event) : bool :=
  match ev with
  | Println line => bool_decide (line = msgDuplicate)
  | _ => false
  end.

Definition rejections (tr : list event) : nat := count isRejection tr.

(** A rollback attempt on a handle that is a Rollout. *)
Definition isPointerDispatch (ev : event) : bool :=
  match ev with
  | CallRollbackerFn info => isRollout info
  | _ => false
  end.

(** The Rollout [P] refers to the workload [W]: its reference parses to the
    group, version and kind of [W] and carries the name of [W]. *)
Definition refersTo (P W : Info) : Prop :=
  match Object P with
  | Some (RolloutV1alpha1 ro) =>
      let ref := Spec_ObjectRef_WorkloadRef ro in
      match ParseGroupVersion (APIVersion ref) with
      | inr gv =>
          Mapping_GroupVersionKind W = mkGVK (gv_Group gv) (gv_Version gv) (wr_Kind ref)
          ∧ Name W = wr_Name ref
      | inl _ => False
      end
  | _ => False
  end.

(** What one visit of the first pass does to the state: [st] before,
    [st'] after, [r] the error recorded for the item. *)
Record step_ok {World : Type} (item : Info * option error) (r : option error)
    (st st' : State World) : Prop := mkStep {
  step_set : ∀ k, k ∈ deDuplica st' ↔ k ∈ deDuplica st ∨ reserves k item r = true;
  step_attempts : ∀ k,
    dispatches k (trace st') + (if queues k item r then 1 else 0)
    = dispatches k (trace st)
      + (if bool_decide (k ∈ deDuplica st' ∧ k ∉ deDuplica st) then 1 else 0);
  step_rollbacks : ∀ k,
    rollbacks k (trace st') + dispatches k (trace st)
    ≤ rollbacks k (trace st) + dispatches k (trace st');
  step_do : count isDo (trace st') = count isDo (trace st);
  step_pointers :
    count isPointerDispatch (trace st') = count isPointerDispatch (trace st);
  step_queue : refResources st' = refResources st ++ reference item r;
  step_duplicate : ∀ k, itemKey item = Some k → k ∈ deDuplica st → r = Some errDuplicate
}.

(** The same for a whole visit of the first pass. *)
Record run_ok {World : Type} (items : list (Info * option error))
    (rs : list (option error)) (st st' : State World) : Prop := mkRun {
  run_length : length rs = length items;
  run_set : ∀ k,
    k ∈ deDuplica st' ↔
    k ∈ deDuplica st ∨
    ∃ i item r, items !! i = Some item ∧ rs !! i = Some r ∧ reserves k item r = true;
  run_attempts : ∀ k,
    dispatches k (trace st') + queued k items rs
    = dispatches k (trace st)
      + (if bool_decide (k ∈ deDuplica st' ∧ k ∉ deDuplica st) then 1 else 0);
  run_rollbacks : ∀ k,
    rollbacks k (trace st') + dispatches k (trace st)
    ≤ rollbacks k (trace st) + dispatches k (trace st');
  run_do : count isDo (trace st') = count isDo (trace st);
  run_pointers :
    count isPointerDispatch (trace st') = count isPointerDispatch (trace st);
  run_queue : refResources st' = refResources st ++ references items rs;
  run_duplicate : ∀ k j item,
    items !! j = Some item → itemKey item = Some k →
    (k ∈ deDuplica st ∨
     ∃ i first r, i < j ∧ items !! i = Some first ∧ rs !! i = Some r ∧
                  reserves k first r = true) →
    rs !! j = Some (Some errDuplicate)
}.


(** What the options allow a call to be: [Rollback] carries the revision
    and the dry-run strategy of the options, and the dry-run verifier is
    asked only under the server-side strategy. *)
Definition conforms (o : UndoOptions) (ev : event) : Prop :=
  match ev with
  | CallRollback _ rev dry => rev = ToRevision o ∧ dry = o_DryRunStrategy o
  | CallHasSupport _ => o_DryRunStrategy o = DryRunServer
  | _ => True
  end.

(** The requests made to the resource source, in order. *)
Fixpoint requests (tr : list event) : list BuilderRequest :=
  match tr with
  | [] => []
  | CallDo req :: tr => req :: requests tr
  | _ :: tr => requests tr
  end.

(** Events that a visit may add: no request to the resource source, and
    calls that conform to the options. *)
Definition visiting (o : UndoOptions) (evs : list event) : Prop :=
  requests evs = [] ∧ Forall (conforms o) evs.

(** A computation that only adds such events to the trace. *)
Definition appends {World A : Type} (o : UndoOptions) (m : @M World A) : Prop :=
  ∀ st, ∃ evs, trace (m st).2 = trace st ++ evs ∧ visiting o evs.

Definition isPrintln (ev : event) : bool :=
  match ev with
  | Println _ => true
  | _ => false
  end.

(** ** A small cluster *)

Module Demo.

Definition deployment (ns name : string) : Info :=
  mkInfo (mkGVK "apps" "v1" "Deployment") ns name (Some (OtherObject "Deployment")).

Definition cloneset (ns name : string) : Info :=
  mkInfo (mkGVK "apps.kruise.io" "v1alpha1" "CloneSet") ns name (Some (OtherObject "CloneSet")).

Definition rollout (ns name : string) (ref : WorkloadRef) : Info :=
  mkInfo (mkGVK "rollouts.kruise.io" "v1alpha1" "Rollout") ns name
         (Some (RolloutV1alpha1 (mkRollout ref))).

Definition toDeployment (name : string) : WorkloadRef :=
  mkWorkloadRef "apps/v1" "Deployment" name.

Definition toCloneSet (name : string) : WorkloadRef :=
  mkWorkloadRef "apps.kruise.io/v1alpha1" "CloneSet" name.

Fixpoint message (e : error) : string :=
  match e with
  | Errorf format => format
  | Aggregate errs => "[" +:+ fold_right (λ e s, message e +:+ ", " +:+ s) "]" errs
  end.

(** A cluster whose state is the number of rollbacks it has performed.
    [resolve] is the resource source, [known] says which handles have a
    rollbacker, [dryRun] which kinds support a server-side dry run, and
    [prints] which operations the printer can describe. *)
Definition cluster
    (resolve : list string → error + list (Info * option error))
    (known : Info → bool) (dryRun : GroupVersionKind → bool)
    (prints : string → bool) : Collaborators nat :=
  {| Rollbacker := unit;
     Printer := string;
     Do req w := (resolve (req_Args req), w);
     RollbackerFn info w :=
       (if known info then inr tt else inl (Errorf "no rollbacker has been implemented"), w);
     Rollback _ _ _ dry w :=
       (inr "rolled back", match dry with DryRunNone => S w | _ => w end);
     HasSupport gvk w :=
       (if dryRun gvk then None else Some (Errorf "does not support dry run"), w);
     ToPrinter operation w :=
       (if prints operation then inr operation else inl (Errorf "no printer"), w);
     PrintObj _ _ w := (None, w);
     Error := message |}.

Definition options (dry : DryRunStrategy) (args : list string) : UndoOptions :=
  mkUndoOptions 0 dry args "default" false [].

Definition always {A} (_ : A) : bool := true.
Definition never {A} (_ : A) : bool := false.

(** [rollout undo deployment/abc deployment/abc]. *)
Definition resolveTwice (args : list string) : error + list (Info * option error) :=
  if bool_decide (args = ["deployment/abc"; "deployment/abc"])
  then inr [(deployment "default" "abc", None); (deployment "default" "abc", None)]
  else inl (Errorf "no such resource").

(** [rollout undo rollout/abc], where the Rollout refers to the CloneSet
    [abc]. *)
Definition resolveRollout (args : list string) : error + list (Info * option error) :=
  if bool_decide (args = ["rollout/abc"])
  then inr [(rollout "default" "abc" (toCloneSet "abc"), None)]
  else if bool_decide (args = ["CloneSet.v1alpha1.apps.kruise.io/abc"])
  then inr [(cloneset "default" "abc", None)]
  else inl (Errorf "no such resource").

(** The same command when the second resolution fails. *)
Definition resolveRolloutOnly (args : list string) : error + list (Info * option error) :=
  if bool_decide (args = ["rollout/abc"])
  then inr [(rollout "default" "abc" (toCloneSet "abc"), None)]
  else inl (Errorf "no such resource").





(** [rollout undo deployment/abc rollout/abc] on a cluster where the second
    resolution fails. *)
Definition pairArgs : list string := ["deployment/abc"; "rollout/abc"].

Definition pairItems : list (Info * option error) :=
  [(deployment "default" "abc", None);
   (rollout "default" "abc" (toCloneSet "abc"), None)].

Definition resolvePair (args : list string) : error + list (Info * option error) :=
  if bool_decide (args = pairArgs) then inr pairItems
  else inl (Errorf "no such resource").

(** [rollout undo rollout/abc deployment/abc], where the Rollout refers to the
    Deployment [abc]. *)
Definition bothArgs : list string := ["rollout/abc"; "deployment/abc"].

Definition bothItems : list (Info * option error) :=
  [(rollout "default" "abc" (toDeployment "abc"), None);
   (deployment "default" "abc", None)].

Definition resolveBoth (args : list string) : error + list (Info * option error) :=
  if bool_decide (args = bothArgs) then inr bothItems
  else if bool_decide (args = ["Deployment.v1.apps/abc"])
  then inr [(deployment "default" "abc", None)]
  else inl (Errorf "no such resource").


(** The runs of the scenarios above. *)
Definition twiceItems : list (Info * option error) :=
  [(deployment "default" "abc", None); (deployment "default" "abc", None)].
Definition twiceCluster : Collaborators nat := cluster resolveTwice always always always.
Definition twiceOptions : UndoOptions :=
  options DryRunNone ["deployment/abc"; "deployment/abc"].

Definition rolloutCluster : Collaborators nat := cluster resolveRollout always always always.
Definition rolloutOptions : UndoOptions := options DryRunNone ["rollout/abc"].
Definition rolloutToCloneSet : Info := rollout "default" "abc" (toCloneSet "abc").


(** No kind supports the server-side dry run, and the second resolution
    fails. *)
Definition pairCluster : Collaborators nat := cluster resolvePair always never always.
Definition pairOptions : UndoOptions := options DryRunServer pairArgs.

Definition bothOptions : UndoOptions := options DryRunNone bothArgs.
Definition rolloutToDeployment : Info := rollout "default" "abc" (toDeployment "abc").


(** No handle has a rollbacker. *)
Definition unknownCluster : Collaborators nat := cluster resolveTwice never always always.

(** No kind supports the server-side dry run. *)
Definition gatedCluster : Collaborators nat := cluster resolveTwice always never always.
Definition gatedOptions : UndoOptions := options DryRunServer ["deployment/abc"].

Definition deploymentKey : string := "apps/v1, Kind=Deploymentabc".
Definition clonesetKey : string := "apps.kruise.io/v1alpha1, Kind=CloneSetabc".

(** A Rollout handle that came without its object. *)
Definition emptyRollout : Info :=
  mkInfo (mkGVK "rollouts.kruise.io" "v1alpha1" "Rollout") "default" "abc" None.

(** A Deployment [sabc] and a handle of kind [Deployments] named [abc]. *)
Definition shiftedItems : list (Info * option error) :=
  [(deployment "default" "sabc", None);
   (mkInfo (mkGVK "apps" "v1" "Deployments") "default" "abc" (Some (OtherObject "Deployments")),
    None)].

(** A cluster whose printer knows the operation "rolled back" only. *)
Definition muteCluster : Collaborators nat :=
  cluster resolveBoth always always (λ operation, bool_decide (operation = "rolled back")).

(** [rollout undo cronjob/abc] on a cluster that does not know the
    resource. *)
Definition unresolvedOptions : UndoOptions := options DryRunNone ["cronjob/abc"].

End Demo.

(** ** Properties *)

Set Warnings "-clear-no-such-hyp".

Section Properties.
Context {World : Type} (K : Collaborators World) (o : UndoOptions).

Lemma count_app p (tr1 tr2 : list event) : count p (tr1 ++ tr2) = count p tr1 + count p tr2.
Proof. induction tr1 as [|ev tr1 IH]; simpl; [done|]. rewrite IH. lia. Qed.

Ltac split_run :=
  repeat match goal with
  | H : context [match ?x with _ => _ end] |- _ => destruct x eqn:?; simpl in H
  | H : (_, _) = (_, _) |- _ => inversion H; clear H; subst
  end.

(** [undoFunc] on a handle: one lookup of the rollbacker, at most one call
    of [Rollback], and the two captured variables are left alone. *)
Lemma undoFunc_trace info st r st' :
  undoFunc K o info None st = (r, st') →
  ∃ evs, trace st' = trace st ++ CallRollbackerFn info :: evs
       ∧ (∀ k, dispatches k evs = 0)
       ∧ (∀ k, rollbacks k evs ≤ 1)
       ∧ (∀ k, workloadKey info ≠ k → rollbacks k evs = 0)
       ∧ count isDo evs = 0 ∧ rejections evs = 0 ∧ count isPointerDispatch evs = 0
       ∧ deDuplica st' = deDuplica st ∧ refResources st' = refResources st.
Proof.
  unfold undoFunc, bind, call, ret, rejections. intros H.
  split_run; simpl; rewrite <- ?app_assoc; simpl; eexists; (split; [reflexivity|]);
    unfold dispatches, rollbacks; simpl; repeat split; intros;
    try case_bool_decide; try lia; try done.
Qed.


(** A visit that ends early: some lines are printed or a printer is asked
    for, and nothing else changes. *)
Lemma step_quiet item r (st : State World) w evs :
  (∀ k, dispatches k evs = 0) → (∀ k, rollbacks k evs = 0) → count isDo evs = 0 →
  count isPointerDispatch evs = 0 →
  (∀ k, reserves k item r = false) →
  (∀ k, itemKey item = Some k → k ∈ deDuplica st → r = Some errDuplicate) →
  step_ok item r st (mkState w (trace st ++ evs) (deDuplica st) (refResources st)).
Proof.
  intros Hd Hr Hdo Hpt Hres Hdup. split; simpl; intros; try done.
  - rewrite Hres. naive_solver.
  - unfold dispatches in *. rewrite count_app, Hd.
    specialize (Hres k). unfold reserves in Hres. apply orb_false_iff in Hres as [_ ->].
    case_bool_decide; naive_solver lia.
  - unfold rollbacks, dispatches in *. rewrite !count_app, Hd, Hr. lia.
  - rewrite count_app. lia.
  - rewrite count_app. lia.
  - assert (reference item r = []) as ->; [|by rewrite app_nil_r].
    unfold reference. destruct item as [info [e|]], r; simpl; try done.
    destruct (isRollout info) eqn:Hk; [|done].
    destruct (target info) as [[k id]|] eqn:Ht; [|done].
    specialize (Hres k). unfold reserves, queues in Hres; simpl in Hres.
    rewrite Hk, Ht in Hres. simpl in Hres. rewrite bool_decide_eq_true_2 in Hres by done.
    by rewrite orb_true_r in Hres.
  - eauto.
Qed.

Lemma itemKey_workload info :
  isRollout info = false → itemKey (info, None) = Some (workloadKey info).
Proof. unfold itemKey; simpl. by intros ->. Qed.

Lemma itemKey_rollout info :
  isRollout info = true → itemKey (info, None) = fst <$> target info.
Proof. unfold itemKey; simpl. by intros ->. Qed.

Lemma reserves_rollout_failed k info e :
  isRollout info = true → reserves k (info, None) (Some e) = false.
Proof. unfold reserves, names, queues; simpl. by intros ->. Qed.

Lemma reserves_no_target k info r :
  isRollout info = true → target info = None → reserves k (info, None) r = false.
Proof.
  unfold reserves, names, queues; simpl. intros -> ->. simpl.
  by destruct r.
Qed.

(** One visit of the first pass. *)
Lemma visitor_step info err st r st' :
  visitor K o info err st = (r, st') → step_ok (info, err) r st st'.
Proof.
  unfold visitor. destruct err as [e|].
  { intros [= <- <-]. destruct st as [w tr D refs].
    rewrite <- (app_nil_r tr) at 2. by apply (step_quiet _ _ (mkState w tr D refs) w []). }
  destruct (isRollout info) eqn:Hkind.
  - (* a Rollout *)
    destruct (Object info) as [[ro|other]|] eqn:Hobj.
    + destruct (ParseGroupVersion _) as [e|gv] eqn:Hgv.
      { intros [= <- <-]. destruct st as [w tr D refs].
        rewrite <- (app_nil_r tr) at 2. apply (step_quiet _ _ (mkState w tr D refs) w []); try done.
        - intros k. apply reserves_no_target; [done|]. unfold target. by rewrite Hobj, Hgv.
        - intros k. rewrite itemKey_rollout by done. unfold target. by rewrite Hobj, Hgv. }
      assert (target info =
              Some (deDuplicaKey (mkGVK (gv_Group gv) (gv_Version gv)
                                        (wr_Kind (Spec_ObjectRef_WorkloadRef ro)))
                                 (wr_Name (Spec_ObjectRef_WorkloadRef ro)),
                    resourceIdentifier gv (Spec_ObjectRef_WorkloadRef ro))) as Ht.
      { unfold target. by rewrite Hobj, Hgv. }
      unfold bind, reserved, println, call, reserve, enqueue, ret.
      fold (deDuplicaKey (mkGVK (gv_Group gv) (gv_Version gv)
                                (wr_Kind (Spec_ObjectRef_WorkloadRef ro)))
                         (wr_Name (Spec_ObjectRef_WorkloadRef ro))).
      case_bool_decide as Hin; simpl.
      { intros [= <- <-]. apply (step_quiet _ _ st _ [_]); try done.
        intros k. by apply reserves_rollout_failed. }
      destruct (ToPrinter K _ _) as [[e|p] w1] eqn:Hp; simpl.
      { intros [= <- <-].
        apply (step_quiet _ _ st w1 [_]); try done.
        - intros k. by apply reserves_rollout_failed.
        - intros k. rewrite itemKey_rollout, Ht by done. naive_solver. }
      destruct (PrintObj K _ _ _) as [[e|] w2] eqn:Hq; simpl.
      { intros [= <- <-]. rewrite <- app_assoc.
        apply (step_quiet _ _ st w2 [_; _]); try done.
        - intros k. by apply reserves_rollout_failed.
        - intros k. rewrite itemKey_rollout, Ht by done. naive_solver. }
      intros [= <- <-].
      split; unfold reserves, names, queues, reference; simpl; rewrite ?Hkind, ?Ht; simpl; intros.
      * rewrite elem_of_union, elem_of_singleton. case_bool_decide; naive_solver.
      * unfold dispatches. rewrite !count_app. simpl.
        repeat case_bool_decide; try lia; set_solver.
      * unfold rollbacks, dispatches. rewrite !count_app. simpl. lia.
      * rewrite !count_app. simpl. lia.
      * rewrite !count_app. simpl. lia.
      * done.
      * rewrite itemKey_rollout, Ht in H by done. naive_solver.
    + unfold bind, println, ret. intros [= <- <-]. apply (step_quiet _ _ st _ [_]); try done.
      * intros k. by apply reserves_rollout_failed.
      * intros k. rewrite itemKey_rollout by done. unfold target. by rewrite Hobj.
    + unfold bind, println, ret. intros [= <- <-]. apply (step_quiet _ _ st _ [_]); try done.
      * intros k. by apply reserves_rollout_failed.
      * intros k. rewrite itemKey_rollout by done. unfold target. by rewrite Hobj.
  - (* a workload *)
    unfold bind, reserved, println, reserve, ret. fold (workloadKey info).
    case_bool_decide as Hin; simpl.
    { intros [= <- <-].
      split; unfold reserves, names, queues, reference; simpl; rewrite ?Hkind; simpl; intros;
        try done.
      - case_bool_decide; naive_solver.
      - unfold dispatches. rewrite count_app. simpl. case_bool_decide; naive_solver lia.
      - unfold rollbacks, dispatches. rewrite !count_app. simpl. lia.
      - rewrite count_app. simpl. lia.
      - rewrite count_app. simpl. lia.
      - by rewrite app_nil_r. }
    intros Hrun. apply undoFunc_trace in Hrun as (evs & Htr & Hd & Hr1 & Hr0 & Hdo & _ & Hpt & HD & Hrefs).
    simpl in *.
    split; unfold reserves, names, queues, reference; simpl;
      rewrite ?Hkind, ?HD, ?Hrefs, ?Htr; simpl; intros.
    + rewrite elem_of_union, elem_of_singleton. destruct r; case_bool_decide; naive_solver.
    + unfold dispatches in *. rewrite count_app. simpl. rewrite Hd.
      replace (if match r with Some _ => false | None => false end then 1 else 0)
        with 0 by (by destruct r).
      repeat case_bool_decide; try lia; set_solver.
    + unfold rollbacks, dispatches in *. rewrite !count_app. simpl. rewrite Hd.
      case_bool_decide.
      * specialize (Hr1 k). lia.
      * rewrite Hr0 by done. lia.
    + rewrite count_app. simpl. lia.
    + rewrite count_app. simpl. rewrite Hkind, Hpt. lia.
    + destruct r; by rewrite app_nil_r.
    + rewrite itemKey_workload in H by done. congruence.
Qed.

Lemma VisitEach_cons info err rest fn (st : State World) :
  VisitEach ((info, err) :: rest) fn st =
  let (r, st1) := fn info err st in
  let (rs, st2) := VisitEach rest fn st1 in
  (r :: rs, st2).
Proof.
  simpl. unfold bind, ret. destruct (fn info err st) as [r st1].
  by destruct (VisitEach rest fn st1).
Qed.


(** A whole visit of the first pass, from any state. *)
Lemma firstPass_run items : ∀ st rs st',
  VisitEach items (visitor K o) st = (rs, st') → run_ok items rs st st'.
Proof.
  induction items as [|[info err] rest IH]; intros st rs st'.
  { intros [= <- <-]. split; simpl; intros; try done.
    - split; [by left|]. intros [?|(i & ? & ? & ? & _)]; done.
    - case_bool_decide; naive_solver.
    - by rewrite app_nil_r. }
  rewrite VisitEach_cons.
  destruct (visitor K o info err st) as [r st1] eqn:Hhead.
  destruct (VisitEach rest (visitor K o) st1) as [rs1 st2] eqn:Htail.
  intros [= <- <-].
  apply visitor_step in Hhead as [S1 S2 S3 S4 Sp S5 S6].
  apply IH in Htail as [R0 R1 R2 R3 R4 Rp R5 R6].
  split; simpl; intros.
  - by rewrite R0.
  - rewrite R1, S1. split.
    + intros [[?|?]|(i & item & r0 & ? & ? & ?)]; [by left| |].
      * right. by exists 0, (info, err), r.
      * right. by exists (S i), item, r0.
    + intros [?|(i & item & r0 & Hi & Hr & ?)]; [by left; left|].
      destruct i as [|i]; simpl in *.
      * left; right. congruence.
      * right. by exists i, item, r0.
  - specialize (S2 k). specialize (R2 k).
    assert (k ∈ deDuplica st → k ∈ deDuplica st1) by (rewrite S1; tauto).
    assert (k ∈ deDuplica st1 → k ∈ deDuplica st2) by (rewrite R1; tauto).
    repeat case_bool_decide; try lia; tauto.
  - specialize (S3 k). specialize (R3 k). lia.
  - congruence.
  - congruence.
  - by rewrite R5, S5, app_assoc.
  - destruct j as [|j]; simpl in *.
    + destruct H1 as [Hin|(i & ? & ? & ? & _)]; [|lia].
      f_equal. simplify_eq. eauto.
    + apply (R6 k j item); [done..|].
      destruct H1 as [Hin|(i & first & r0 & Hlt & Hi & Hr & Hres)].
      * left. rewrite S1. by left.
      * destruct i as [|i]; simpl in *.
        -- left. rewrite S1. right. congruence.
        -- right. exists i, first, r0. split; [lia|done].
Qed.







(** [RunUndo] once the first resolution and the first visit are known. *)
Lemma RunUndo_unfold w0 items w1 rs st1 :
  Do K (request o (Resources o)) w0 = (inr items, w1) →
  VisitEach items (visitor K o) (started o w1) = (rs, st1) →
  RunUndo K o w0 =
  if length (refResources st1) <? 1 then (Returns None, st1)
  else match Do K (request o (refResources st1)) (world st1) with
       | (inl e2, w2) => (Returns (Some e2), restarted o st1 w2)
       | (inr items2, w2) =>
           let (rs2, st3) := VisitEach items2 (undoFunc K o) (restarted o st1 w2) in
           (match aggregate (omap id rs), aggregate (omap id rs2) with
            | Some e, Some e2 => Returns (Some (Errorf (Error K e +:+ "
" +:+ Error K e2)))
            | _, _ => Panics
            end, st3)
       end.
Proof.
  intros Hdo Hvisit.
  unfold RunUndo, call, initial, Visit, bind, ret, started, restarted in *; simpl in *.
  rewrite Hdo, Hvisit.
  destruct (length (refResources st1) <? 1); [done|].
  destruct (Do K _ (world st1)) as [[e2|items2] w2]; [done|].
  destruct (VisitEach items2 (undoFunc K o) _) as [rs2 st3].
  by destruct (aggregate (omap id rs)), (aggregate (omap id rs2)).
Qed.



(** *** Keys as strings *)


Lemma append_cons x (a b : string) : String x a +:+ b = String x (a +:+ b).
Proof. reflexivity. Qed.

Lemma append_assoc (a b c : string) : (a +:+ b) +:+ c = a +:+ b +:+ c.
Proof.
  induction a as [|x a IH]; [done|]. rewrite !append_cons. by f_equal.
Qed.




(** *** The first pass rejects what it has reserved *)



Lemma names_reserves k item r : names k item = true → reserves k item r = true.
Proof. unfold reserves. by intros ->. Qed.




(** *** The claims about the first pass and the whole run *)





(** C10.  A workload is reserved before its rollback is tried: visiting it
    with a fresh key is [undoFunc] run on the state that already holds the
    key.  So whatever the first visit of a workload returns (no rollbacker,
    no dry-run support, a failed rollback, or success), a later workload
    with the same key gets the duplicate error. *)
Theorem workload_reserved_before_rollback items st rs st' i j a b :
  VisitEach items (visitor K o) st = (rs, st') →
  isRollout a = false → isRollout b = false →
  workloadKey a = workloadKey b →
  items !! i = Some (a, None) → items !! j = Some (b, None) → i < j →
  rs !! j = Some (Some errDuplicate) ∧
  ∀ st0 : State World,
    workloadKey a ∉ deDuplica st0 →
    visitor K o a None st0
    = undoFunc K o a None (withDeDuplica ({[workloadKey a]} ∪ deDuplica st0) st0).
Proof.
  intros Hvisit Ha Hb Hkey Hi Hj Hlt.
  pose proof (firstPass_run _ _ _ _ Hvisit) as [R0 R1 R2 R3 R4 Rp R5 R6].
  split.
  - apply (R6 (workloadKey a) j (b, None)); [done| |].
    { rewrite itemKey_workload by done. congruence. }
    destruct (lookup_lt_is_Some_2 rs i) as [r Hr].
    { rewrite R0. by eapply lookup_lt_Some. }
    right. exists i, (a, None), r. repeat split; [done..|].
    apply names_reserves. unfold names; simpl. rewrite Ha. simpl.
    by rewrite bool_decide_eq_true_2.
  - intros st0 Hfresh. unfold visitor. rewrite Ha.
    unfold bind, reserved, reserve. fold (workloadKey a).
    by rewrite bool_decide_eq_false_2.
Qed.


(** C7.  When the first pass leaves the list of references empty, [RunUndo]
    returns without error in the state the first pass ended in: the
    resource source was asked once, and nothing is called after the first
    visit. *)
Theorem no_reference_no_second_pass w0 items w1 rs st1 :
  Do K (request o (Resources o)) w0 = (inr items, w1) →
  VisitEach items (visitor K o) (started o w1) = (rs, st1) →
  refResources st1 = [] →
  RunUndo K o w0 = (Returns None, st1) ∧ count isDo (trace st1) = 1.
Proof.
  intros Hdo Hvisit Hrefs.
  rewrite (RunUndo_unfold _ _ _ _ _ Hdo Hvisit), Hrefs. simpl. split; [done|].
  pose proof (firstPass_run _ _ _ _ Hvisit) as [R0 R1 R2 R3 R4 Rp R5 R6]. by rewrite R4.
Qed.

(** C8.  With the server-side dry run, when the verifier does not support
    the kind of the handle, [undoFunc] returns the error of the verifier
    after two calls, the lookup of the rollbacker and the check; [Rollback]
    is not called.  And in every run of [undoFunc] under that strategy, a
    call of [Rollback] comes after a call of the check. *)
Theorem dry_run_gate info st rollbacker w1 e w2 :
  o_DryRunStrategy o = DryRunServer →
  RollbackerFn K info (world st) = (inr rollbacker, w1) →
  HasSupport K (Mapping_GroupVersionKind info) w1 = (Some e, w2) →
  undoFunc K o info None st
  = (Some e,
     mkState w2
       (trace st ++ [CallRollbackerFn info; CallHasSupport (Mapping_GroupVersionKind info)])
       (deDuplica st) (refResources st)) ∧
  (∀ k, rollbacks k (trace (undoFunc K o info None st).2) = rollbacks k (trace st)) ∧
  (∀ (st0 : State World) n rev dry,
     trace st0 = [] →
     trace (undoFunc K o info None st0).2 !! n = Some (CallRollback info rev dry) →
     ∃ m, m < n ∧
          trace (undoFunc K o info None st0).2 !! m
          = Some (CallHasSupport (Mapping_GroupVersionKind info))).
Proof.
  intros Hdry Hrb Hsup.
  assert (undoFunc K o info None st
          = (Some e,
             mkState w2
               (trace st ++ [CallRollbackerFn info;
                             CallHasSupport (Mapping_GroupVersionKind info)])
               (deDuplica st) (refResources st))) as Hrun.
  { unfold undoFunc, bind, call, ret. rewrite Hrb, Hdry. simpl. rewrite Hsup.
    by rewrite <- app_assoc. }
  split; [done|]. split.
  - intros k. rewrite Hrun. simpl. unfold rollbacks. rewrite count_app. simpl. lia.
  - clear Hrb Hsup Hrun. intros st0 n rev dry Hempty.
    unfold undoFunc, bind, call, ret. rewrite Hdry, Hempty.
    destruct (RollbackerFn K info (world st0)) as [[?|rb] ?]; simpl;
      [|destruct (HasSupport K _ _) as [[?|] ?]; simpl;
        [|destruct (Rollback K _ _ _ _ _) as [[?|result] ?]; simpl;
          [|destruct (ToPrinter K _ _) as [[?|printer] ?]; simpl;
            [|destruct (PrintObj K _ _ _) as [? ?]; simpl]]]];
      intros Hn;
      do 6 (try (destruct n as [|n]; simpl in Hn; simplify_eq));
      exists 1; (split; [lia|done]).
Qed.


End Properties.


(** ** The claims on the small cluster *)

Section OnTheCluster.

Import Demo.





(** C3, the code at the failing input.  [rollout undo deployment/abc
    deployment/abc]: the first pass rolls the Deployment back once and
    records the duplicate error for the second argument, no reference is
    queued, and [RunUndo] returns no error. *)
Lemma duplicate_error_is_dropped :
  (Visit twiceItems (visitor twiceCluster twiceOptions) (started twiceOptions 0)).1
    = Some errDuplicate ∧
  rollbacks deploymentKey (trace (RunUndo twiceCluster twiceOptions 0).2) = 1 ∧
  refResources (RunUndo twiceCluster twiceOptions 0).2 = [] ∧
  (RunUndo twiceCluster twiceOptions 0).1 = Returns None.
Proof. vm_compute. repeat split. Qed.

(** C4, the code at the failing input.  [rollout undo rollout/abc] where
    the Rollout refers to the CloneSet [abc] and every call succeeds: the
    first visit returns no error, the CloneSet is rolled back once in the
    second pass, and [RunUndo] panics when it joins the two errors. *)
Lemma join_of_nil_errors_panics :
  (Visit [(rolloutToCloneSet, None)] (visitor rolloutCluster rolloutOptions)
         (started rolloutOptions 0)).1 = None ∧
  rollbacks clonesetKey (trace (RunUndo rolloutCluster rolloutOptions 0).2) = 1 ∧
  (RunUndo rolloutCluster rolloutOptions 0).1 = Panics.
Proof. vm_compute. repeat split. Qed.


Lemma workload_reserved_before_rollback_witness :
  (VisitEach twiceItems (visitor unknownCluster twiceOptions) (started twiceOptions 0)).1 !! 0
    = Some (Some (Errorf "no rollbacker has been implemented")) ∧
  (VisitEach twiceItems (visitor unknownCluster twiceOptions) (started twiceOptions 0)).1 !! 1
    = Some (Some errDuplicate).
Proof.
  pose (run := VisitEach twiceItems (visitor unknownCluster twiceOptions)
                         (started twiceOptions 0)).
  destruct (workload_reserved_before_rollback unknownCluster twiceOptions twiceItems
              (started twiceOptions 0) run.1 run.2 0 1
              (deployment "default" "abc") (deployment "default" "abc"))
    as (Hdup & _);
    [apply surjective_pairing|reflexivity..|lia|].
  split; [by vm_compute|exact Hdup].
Defined.


Lemma no_reference_no_second_pass_witness :
  (RunUndo twiceCluster twiceOptions 0).1 = Returns None ∧
  count isDo (trace (RunUndo twiceCluster twiceOptions 0).2) = 1.
Proof.
  pose (run := VisitEach twiceItems (visitor twiceCluster twiceOptions)
                         (started twiceOptions 0)).
  destruct (no_reference_no_second_pass twiceCluster twiceOptions 0 twiceItems 0 run.1 run.2)
    as (Hrun & Hdo); [reflexivity|apply surjective_pairing|by vm_compute|].
  rewrite Hrun. split; [reflexivity|exact Hdo].
Defined.

Lemma dry_run_gate_witness :
  undoFunc gatedCluster gatedOptions (deployment "default" "abc") None (initial 0)
  = (Some (Errorf "does not support dry run"),
     mkState 0 [CallRollbackerFn (deployment "default" "abc");
                CallHasSupport (mkGVK "apps" "v1" "Deployment")] ∅ []).
Proof.
  destruct (dry_run_gate gatedCluster gatedOptions (deployment "default" "abc") (initial 0)
              tt 0 (Errorf "does not support dry run") 0)
    as (Hrun & _); [reflexivity..|].
  exact Hrun.
Defined.

End OnTheCluster.

(** ** Further properties of the command *)

Section Further.
Context {World : Type} (K : Collaborators World) (o : UndoOptions).

(** X1.  [RunUndo] reports success exactly when the first resolution succeeds and
    the first pass queues no reference, whatever errors the first visit
    recorded. *)
Theorem success_iff_no_reference w :
  (RunUndo K o w).1 = Returns None ↔
  ∃ items w1,
    Do K (request o (Resources o)) w = (inr items, w1) ∧
    refResources (VisitEach items (visitor K o) (started o w1)).2 = [].
Proof.
  destruct (Do K (request o (Resources o)) w) as [[e|items] w1] eqn:Hdo.
  - split.
    + unfold RunUndo, call, initial; simpl. rewrite Hdo. done.
    + intros (items & w1' & [=] & _).
  - destruct (VisitEach items (visitor K o) (started o w1)) as [rs st1] eqn:Hvisit.
    rewrite (RunUndo_unfold K o _ _ _ _ _ Hdo Hvisit).
    split.
    + intros Hret. exists items, w1. split; [done|]. rewrite Hvisit. simpl.
      destruct (refResources st1) as [|ref refs]; [done|]. simpl in Hret.
      destruct (Do K _ (world st1)) as [[e2|items2] w2]; [done|].
      destruct (VisitEach items2 _ _) as [rs2 st3].
      by destruct (aggregate (omap id rs)), (aggregate (omap id rs2)).
    + intros (items' & w1' & [= <- <-] & Hrefs). rewrite Hvisit in Hrefs. simpl in Hrefs.
      by rewrite Hrefs.
Qed.

(** *** How the trace grows *)

Lemma requests_app tr1 tr2 : requests (tr1 ++ tr2) = requests tr1 ++ requests tr2.
Proof.
  induction tr1 as [|ev tr1 IH]; simpl; [done|]. destruct ev; simpl; by rewrite ?IH.
Qed.

Lemma visiting_nil : visiting o [].
Proof. by split. Qed.

Lemma visiting_app evs1 evs2 : visiting o evs1 → visiting o evs2 → visiting o (evs1 ++ evs2).
Proof.
  intros [Hr1 Hc1] [Hr2 Hc2]. split; [by rewrite requests_app, Hr1, Hr2|].
  by apply Forall_app.
Qed.

Lemma ret_appends {A} (a : A) : appends (World := World) o (ret a).
Proof. intros st. exists []. split; [by rewrite app_nil_r|apply visiting_nil]. Qed.

Lemma call_appends {A} ev (f : World → A * World) :
  visiting o [ev] → appends o (call ev f).
Proof. intros Hev st. exists [ev]. unfold call. by destruct (f (world st)). Qed.

Lemma bind_appends {A B} (m : @M World A) (k : A → @M World B) :
  appends o m → (∀ a, appends o (k a)) → appends o (bind m k).
Proof.
  intros Hm Hk st. unfold bind. destruct (Hm st) as (evs1 & Htr1 & Hv1).
  destruct (m st) as [a st1]. destruct (Hk a st1) as (evs2 & Htr2 & Hv2).
  exists (evs1 ++ evs2). split; [|by apply visiting_app].
  simpl in *. by rewrite Htr2, Htr1, app_assoc.
Qed.

Lemma println_appends line : appends (World := World) o (println line).
Proof. intros st. exists [Println line]. split; [done|]. split; [done|]. by repeat constructor. Qed.

Lemma reserve_appends key : appends (World := World) o (reserve key).
Proof. intros st. exists []. split; [by rewrite app_nil_r|apply visiting_nil]. Qed.

Lemma enqueue_appends ref : appends (World := World) o (enqueue ref).
Proof. intros st. exists []. split; [by rewrite app_nil_r|apply visiting_nil]. Qed.

Lemma reserved_appends key : appends (World := World) o (reserved key).
Proof. intros st. exists []. split; [by rewrite app_nil_r|apply visiting_nil]. Qed.

Lemma undoFunc_appends info err : appends o (undoFunc K o info err).
Proof.
  destruct err as [e|]; [apply ret_appends|]. unfold undoFunc.
  apply bind_appends; [apply call_appends; split; [done|by repeat constructor]|].
  intros [e|rollbacker]; [apply ret_appends|].
  apply bind_appends.
  { destruct (o_DryRunStrategy o) eqn:Hdry; try apply ret_appends.
    apply call_appends. split; [done|]. by repeat constructor. }
  intros [e|]; [apply ret_appends|].
  apply bind_appends; [apply call_appends; split; [done|by repeat constructor]|].
  intros [e|result]; [apply ret_appends|].
  apply bind_appends; [apply call_appends; split; [done|by repeat constructor]|].
  intros [e|printer]; [apply ret_appends|].
  apply call_appends; split; [done|by repeat constructor].
Qed.

Lemma visitor_appends info err : appends o (visitor K o info err).
Proof.
  destruct err as [e|]; [apply ret_appends|]. unfold visitor.
  destruct (isRollout info).
  - destruct (Object info) as [[ro|other]|].
    + destruct (ParseGroupVersion _) as [e|gv]; [apply ret_appends|].
      apply bind_appends; [apply reserved_appends|]. intros [|].
      { apply bind_appends; [apply println_appends|]. intros _. apply ret_appends. }
      apply bind_appends; [apply call_appends; split; [done|by repeat constructor]|].
      intros [e|printer]; [apply ret_appends|].
      apply bind_appends; [apply call_appends; split; [done|by repeat constructor]|].
      intros [e|]; [apply ret_appends|].
      apply bind_appends; [apply reserve_appends|]. intros _.
      apply bind_appends; [apply enqueue_appends|]. intros _. apply ret_appends.
    + apply bind_appends; [apply println_appends|]. intros _. apply ret_appends.
    + apply bind_appends; [apply println_appends|]. intros _. apply ret_appends.
  - apply bind_appends; [apply reserved_appends|]. intros [|].
    { apply bind_appends; [apply println_appends|]. intros _. apply ret_appends. }
    apply bind_appends; [apply reserve_appends|]. intros _. apply undoFunc_appends.
Qed.

Lemma VisitEach_appends items (fn : Info → option error → @M World (option error)) :
  (∀ info err, appends o (fn info err)) → appends o (VisitEach items fn).
Proof.
  intros Hfn. induction items as [|[info err] rest IH]; simpl; [apply ret_appends|].
  apply bind_appends; [apply Hfn|]. intros r.
  apply bind_appends; [apply IH|]. intros rs. apply ret_appends.
Qed.

(** *** Resolution errors and the end of [RunUndo] *)

(** X2.  An error of the first resolution is returned as it is, after the one
    call to the resource source: nothing is visited, reserved or rolled
    back. *)
Theorem first_resolution_error_is_fatal w e w1 :
  Do K (request o (Resources o)) w = (inl e, w1) →
  RunUndo K o w = (Returns (Some e), started o w1).
Proof. intros Hdo. unfold RunUndo, call, initial, started; simpl. by rewrite Hdo. Qed.

(** X3.  An error of the second resolution is returned alone: the errors that
    the first visit recorded are not part of what [RunUndo] returns, and no
    handle is visited after the failed resolution. *)
Theorem second_resolution_error_is_returned_alone w items w1 rs st1 e2 w2 :
  Do K (request o (Resources o)) w = (inr items, w1) →
  VisitEach items (visitor K o) (started o w1) = (rs, st1) →
  refResources st1 ≠ [] →
  Do K (request o (refResources st1)) (world st1) = (inl e2, w2) →
  RunUndo K o w = (Returns (Some e2), restarted o st1 w2) ∧
  ∀ k, dispatches k (trace (RunUndo K o w).2) = dispatches k (trace st1).
Proof.
  intros Hdo Hvisit Hrefs Hdo2.
  rewrite (RunUndo_unfold K o _ _ _ _ _ Hdo Hvisit), Hdo2.
  destruct (refResources st1) as [|ref refs] eqn:Heq; [done|]. simpl.
  split; [done|]. intros k. unfold dispatches. rewrite count_app. simpl. lia.
Qed.

Lemma aggregate_None (rs : list (option error)) :
  aggregate (omap id rs) = None ↔ Forall (λ r, r = None) rs.
Proof.
  split.
  - induction rs as [|[e|] rs IH]; [done| |].
    + cbn. destruct (omap id rs); intros; discriminate.
    + intros H. constructor; [done|]. by apply IH.
  - induction 1 as [|r rs -> _ IH]; [done|]. simpl. exact IH.
Qed.

(** X4.  Once the second visit runs, [RunUndo] cannot return success: it returns
    the joined text when both visits recorded an error, and panics when
    one of them recorded none. *)
Theorem second_visit_joins_or_panics w items w1 rs st1 items2 w2 rs2 st3 :
  Do K (request o (Resources o)) w = (inr items, w1) →
  VisitEach items (visitor K o) (started o w1) = (rs, st1) →
  refResources st1 ≠ [] →
  Do K (request o (refResources st1)) (world st1) = (inr items2, w2) →
  VisitEach items2 (undoFunc K o) (restarted o st1 w2) = (rs2, st3) →
  (RunUndo K o w).2 = st3 ∧
  (RunUndo K o w).1 ≠ Returns None ∧
  ((RunUndo K o w).1 = Panics ↔
   Forall (λ r, r = None) rs ∨ Forall (λ r, r = None) rs2) ∧
  (∀ e e2, aggregate (omap id rs) = Some e → aggregate (omap id rs2) = Some e2 →
           (RunUndo K o w).1 = Returns (Some (Errorf (Error K e +:+ "
" +:+ Error K e2)))).
Proof.
  intros Hdo Hvisit Hrefs Hdo2 Hvisit2.
  rewrite (RunUndo_unfold K o _ _ _ _ _ Hdo Hvisit), Hdo2, Hvisit2.
  destruct (refResources st1) as [|ref refs] eqn:Heq; [done|]. simpl.
  rewrite <- !aggregate_None.
  destruct (aggregate (omap id rs)) as [e|], (aggregate (omap id rs2)) as [e2|];
    repeat split; try done; try naive_solver.
Qed.

(** X5.  A command that resolves to workloads only never runs a second pass: the
    resource source is asked once and [RunUndo] returns success, whatever
    the visits of the workloads returned. *)
Theorem no_rollout_no_second_pass w items w1 :
  Do K (request o (Resources o)) w = (inr items, w1) →
  (∀ item, item ∈ items → isRollout item.1 = false) →
  (RunUndo K o w).1 = Returns None ∧
  refResources (RunUndo K o w).2 = [] ∧
  requests (trace (RunUndo K o w).2) = [request o (Resources o)].
Proof.
  intros Hdo Hall.
  destruct (VisitEach items (visitor K o) (started o w1)) as [rs st1] eqn:Hvisit.
  pose proof (firstPass_run K o _ _ _ _ Hvisit) as [R0 R1 R2 R3 R4 Rp R5 R6].
  assert (references items rs = []) as Hnone.
  { clear -Hall. revert rs. induction items as [|item items IH]; intros [|r rs]; simpl; try done.
    rewrite IH by (intros; apply Hall; set_solver).
    unfold reference. rewrite (Hall item) by set_solver. by destruct (item.2), r. }
  rewrite Hnone in R5. simpl in R5.
  rewrite (RunUndo_unfold K o _ _ _ _ _ Hdo Hvisit), R5. simpl.
  split; [done|]. split; [done|].
  destruct (VisitEach_appends items (visitor K o) (visitor_appends) (started o w1))
    as (evs & Htr & Hreq & _).
  rewrite Hvisit in Htr. simpl in Htr. rewrite Htr. simpl. by rewrite Hreq.
Qed.

(** X6.  The resource source is asked at most twice.  The second request carries
    the namespace, the namespace flag and the file names of the options
    again, and as arguments the identifiers of the Rollouts whose visit
    recorded no error, in visiting order. *)
Theorem second_request_carries_the_queue w items w1 rs st1 :
  Do K (request o (Resources o)) w = (inr items, w1) →
  VisitEach items (visitor K o) (started o w1) = (rs, st1) →
  refResources st1 = references items rs ∧
  requests (trace (RunUndo K o w).2)
  = request o (Resources o)
    :: (if decide (references items rs = []) then []
        else [mkRequest (o_Namespace o) (EnforceNamespace o) (Filenames o)
                        (references items rs)]).
Proof.
  intros Hdo Hvisit.
  pose proof (firstPass_run K o _ _ _ _ Hvisit) as [R0 R1 R2 R3 R4 Rp R5 R6].
  simpl in R5. split; [done|].
  destruct (VisitEach_appends items (visitor K o) (visitor_appends) (started o w1))
    as (evs & Htr & Hreq & _).
  rewrite Hvisit in Htr. simpl in Htr.
  rewrite (RunUndo_unfold K o _ _ _ _ _ Hdo Hvisit), R5.
  destruct (references items rs) as [|ref refs] eqn:Hrefs; simpl.
  { rewrite Htr. simpl. by rewrite Hreq. }
  rewrite ?decide_False by done.
  destruct (Do K _ (world st1)) as [[e2|items2] w2]; simpl.
  { rewrite requests_app, Htr. simpl. by rewrite Hreq, R5. }
  destruct (VisitEach_appends items2 (undoFunc K o) (undoFunc_appends) (restarted o st1 w2))
    as (evs2 & Htr2 & Hreq2 & _).
  destruct (VisitEach items2 (undoFunc K o) (restarted o st1 w2)) as [rs2 st3]. simpl in *.
  rewrite Htr2, !requests_app, Htr. simpl. by rewrite Hreq, Hreq2, R5.
Qed.

(** X7.  Every call of [Rollback] in a run carries the revision and the dry-run
    strategy of the options, and the dry-run verifier is asked only under
    the server-side strategy. *)
Theorem run_conforms_to_options w : Forall (conforms o) (trace (RunUndo K o w).2).
Proof.
  destruct (Do K (request o (Resources o)) w) as [[e|items] w1] eqn:Hdo.
  { unfold RunUndo, call, initial; simpl. rewrite Hdo. by repeat constructor. }
  destruct (VisitEach items (visitor K o) (started o w1)) as [rs st1] eqn:Hvisit.
  destruct (VisitEach_appends items (visitor K o) (visitor_appends) (started o w1))
    as (evs & Htr & _ & Hconf).
  rewrite Hvisit in Htr. simpl in Htr.
  assert (Forall (conforms o) (trace st1)) as H1.
  { rewrite Htr. by constructor. }
  rewrite (RunUndo_unfold K o _ _ _ _ _ Hdo Hvisit).
  destruct (length (refResources st1) <? 1); [done|].
  destruct (Do K _ (world st1)) as [[e2|items2] w2]; simpl.
  { apply Forall_app. split; [done|by repeat constructor]. }
  destruct (VisitEach_appends items2 (undoFunc K o) (undoFunc_appends) (restarted o st1 w2))
    as (evs2 & Htr2 & _ & Hconf2).
  destruct (VisitEach items2 (undoFunc K o) (restarted o st1 w2)) as [rs2 st3]. simpl in *.
  rewrite Htr2. repeat (apply Forall_app; split); try done. by repeat constructor.
Qed.

(** *** One handle *)

Lemma undoFunc_returns_nil info st st' :
  undoFunc K o info None st = (None, st') →
  ∃ result,
    trace st' =
    trace st ++
    CallRollbackerFn info ::
    match o_DryRunStrategy o with
    | DryRunServer => [CallHasSupport (Mapping_GroupVersionKind info)]
    | _ => []
    end ++
    [CallRollback info (ToRevision o) (o_DryRunStrategy o);
     CallToPrinter result;
     CallPrintObj result (Object info)].
Proof.
  unfold undoFunc, bind, call, ret. intros H.
  destruct (RollbackerFn K info (world st)) as [[e|rb] w1]; simpl in H; [done|].
  destruct (o_DryRunStrategy o) eqn:Hdry; simpl in H;
    try (destruct (HasSupport K (Mapping_GroupVersionKind info) w1) as [[e|] w1'];
         simpl in H; [done|]);
    match type of H with
    | context [Rollback K ?a ?b ?c ?d ?w] =>
        destruct (Rollback K a b c d w) as [[e|result] w2]; simpl in H; [done|]
    end;
    destruct (ToPrinter K result w2) as [[e|printer] w3]; simpl in H; [done| | done| | done|];
    destruct (PrintObj K printer (Object info) w3) as [a w4]; simpl in H;
    injection H as -> <-; exists result; simpl; by rewrite <- !app_assoc.
Qed.


(** X9.  A workload whose visit in the first pass records no error has been
    rolled back during that visit: the count of [Rollback] calls for its key
    grows by one, and its key is in the set. *)
Theorem reported_success_means_rolled_back W st st' :
  isRollout W = false →
  visitor K o W None st = (None, st') →
  rollbacks (workloadKey W) (trace st') = rollbacks (workloadKey W) (trace st) + 1 ∧
  workloadKey W ∈ deDuplica st' ∧
  workloadKey W ∉ deDuplica st.
Proof.
  intros HW. unfold visitor. rewrite HW.
  unfold bind, reserved, reserve, println, ret. fold (workloadKey W).
  case_bool_decide as Hin; simpl; [done|]. intros Hrun.
  pose proof (undoFunc_trace K o _ _ _ _ Hrun) as (_ & _ & _ & _ & _ & _ & _ & _ & HD & _).
  apply undoFunc_returns_nil in Hrun as [result Htr]. simpl in *.
  split; [|split; [rewrite HD; set_solver|done]].
  rewrite Htr. unfold rollbacks. rewrite count_app. simpl. rewrite count_app. simpl.
  rewrite bool_decide_eq_true_2 by done.
  assert (count (isRollback (workloadKey W))
            match o_DryRunStrategy o with
            | DryRunServer => [CallHasSupport (Mapping_GroupVersionKind W)]
            | _ => []
            end = 0) as -> by (by destruct (o_DryRunStrategy o)).
  lia.
Qed.

(** X10.  A Rollout handle without a usable reference (no object, an object of
    another type, or an [apiVersion] that does not parse) gets an error; no
    collaborator is called for it, the cluster, the set and the queue stay
    as they are, and at most a line is printed. *)
Theorem malformed_rollout_changes_nothing P st r st' :
  isRollout P = true → target P = None →
  visitor K o P None st = (r, st') →
  r ≠ None ∧
  ∃ lines, Forall (λ ev, isPrintln ev = true) lines ∧
           st' = mkState (world st) (trace st ++ lines) (deDuplica st) (refResources st).
Proof.
  intros HP Ht. unfold visitor, target in *. rewrite HP.
  destruct (Object P) as [[ro|other]|]; simpl.
  - destruct (ParseGroupVersion _) as [e|gv]; [|done].
    intros [= <- <-]. split; [done|]. exists []. split; [done|].
    rewrite app_nil_r. by destruct st.
  - unfold bind, println, ret. intros [= <- <-]. split; [done|].
    exists [Println "unsupported version of Rollout"]. split; [|done]. by repeat constructor.
  - unfold bind, println, ret. intros [= <- <-]. split; [done|].
    exists [Println "Rollout object not found"]. split; [|done]. by repeat constructor.
Qed.

(** *** Keys *)


(** X12.  The key does not separate the kind from the name: two workloads of one
    group and version, where the kind of the second is the kind of the
    first followed by [c] and the name of the first is [c] followed by the
    name of the second, have one key; visited in one first pass, the later
    of them gets the duplicate error although kind and name differ. *)
Theorem kind_and_name_share_a_boundary items st rs st' i j a b c :
  VisitEach items (visitor K o) st = (rs, st') →
  isRollout a = false → isRollout b = false →
  Group (Mapping_GroupVersionKind a) = Group (Mapping_GroupVersionKind b) →
  Version (Mapping_GroupVersionKind a) = Version (Mapping_GroupVersionKind b) →
  Kind (Mapping_GroupVersionKind b) = Kind (Mapping_GroupVersionKind a) +:+ c →
  Name a = c +:+ Name b →
  items !! i = Some (a, None) → items !! j = Some (b, None) → i ≠ j →
  workloadKey a = workloadKey b ∧
  rs !! (i `max` j) = Some (Some errDuplicate).
Proof.
  intros Hvisit Ha Hb HG HV HK HN Hi Hj Hne.
  assert (workloadKey a = workloadKey b) as Hkey.
  { unfold workloadKey, deDuplicaKey, gvk_String. rewrite HG, HV, HK, HN.
    by rewrite !append_assoc. }
  split; [done|].
  pose proof (firstPass_run K o _ _ _ _ Hvisit) as [R0 R1 R2 R3 R4 Rp R5 R6].
  assert (∀ n x, items !! n = Some x → is_Some (rs !! n)) as Hres.
  { intros n x Hn. apply lookup_lt_is_Some_2. rewrite R0. by eapply lookup_lt_Some. }
  destruct (decide (i < j)) as [Hlt|Hge].
  - rewrite Nat.max_r by lia. destruct (Hres i _ Hi) as [r Hr].
    apply (R6 (workloadKey a) j (b, None)); [done| |].
    { rewrite itemKey_workload by done. congruence. }
    right. exists i, (a, None), r. repeat split; [done..|].
    apply names_reserves. unfold names; simpl. rewrite Ha. simpl.
    by rewrite bool_decide_eq_true_2.
  - rewrite Nat.max_l by lia. destruct (Hres j _ Hj) as [r Hr].
    apply (R6 (workloadKey a) i (a, None)); [done| |].
    { by rewrite itemKey_workload. }
    right. exists j, (b, None), r. repeat split; [lia|done..|].
    apply names_reserves. unfold names; simpl. rewrite Hb. simpl.
    by rewrite bool_decide_eq_true_2.
Qed.

(** *** The set and the queue *)

Lemma reserves_itemKey k item r : reserves k item r = true → itemKey item = Some k.
Proof.
  unfold reserves, names, queues, itemKey. destruct item as [info [e|]]; simpl; [done|].
  destruct (isRollout info); simpl.
  - destruct r; [done|]. by intros ?%bool_decide_eq_true.
  - destruct r; rewrite orb_false_r; by intros ->%bool_decide_eq_true.
Qed.

(** X13.  The first pass only adds keys to the set, at most one for each item. *)
Theorem deDuplica_only_grows items st :
  deDuplica st ⊆ deDuplica (VisitEach items (visitor K o) st).2 ∧
  size (deDuplica (VisitEach items (visitor K o) st).2) ≤ size (deDuplica st) + length items.
Proof.
  revert st. induction items as [|[info err] rest IH]; intros st.
  { simpl. split; [done|lia]. }
  rewrite VisitEach_cons.
  destruct (visitor K o info err st) as [r st1] eqn:Hhead.
  destruct (IH st1) as [Hsub Hsize].
  destruct (VisitEach rest (visitor K o) st1) as [rs st2]. simpl in *.
  apply visitor_step in Hhead as [S1 _ _ _ _ _ _].
  assert (deDuplica st ⊆ deDuplica st1) as Hsub1.
  { intros k Hk. apply S1. by left. }
  split; [set_solver|].
  assert (size (deDuplica st1) ≤ size (deDuplica st) + 1); [|lia].
  destruct (itemKey (info, err)) as [k0|] eqn:Hk0.
  - assert (deDuplica st1 ⊆ deDuplica st ∪ {[k0]}) as Hin.
    { intros k [Hk|Hres]%S1; [set_solver|].
      apply reserves_itemKey in Hres. set_solver. }
    apply subseteq_size in Hin.
    pose proof (size_union_alt (deDuplica st) {[k0]}) as Hu.
    pose proof (subseteq_size ({[k0]} ∖ deDuplica st) {[k0]}) as Hle.
    rewrite size_singleton in Hle.
    assert (size ({[k0]} ∖ deDuplica st) ≤ 1) by (apply Hle; set_solver). lia.
  - assert (deDuplica st1 ⊆ deDuplica st) as Hin.
    { intros k [Hk|Hres]%S1; [done|]. apply reserves_itemKey in Hres. congruence. }
    apply subseteq_size in Hin. lia.
Qed.

(** X14.  A Rollout whose description could not be printed reserves nothing: a
    workload with the key of its reference that is visited next is not
    rejected, the rollback path is entered for it, and no reference is
    queued. *)
Theorem unprinted_rollout_is_not_reserved P W st rs st' :
  isRollout P = true → isRollout W = false → refersTo P W →
  deDuplica st = ∅ →
  VisitEach [(P, None); (W, None)] (visitor K o) st = (rs, st') →
  rs !! 0 ≠ Some None →
  dispatches (workloadKey W) (trace st') = dispatches (workloadKey W) (trace st) + 1 ∧
  refResources st' = refResources st.
Proof.
  intros HP HW Hrefers HD Hvisit Hfailed.
  pose proof (firstPass_run K o _ _ _ _ Hvisit) as [R0 R1 R2 R3 R4 Rp R5 R6].
  destruct rs as [|r0 [|r1 [|]]]; try done. simpl in Hfailed.
  assert (r0 ≠ None) as Hr0 by congruence.
  split.
  - specialize (R2 (workloadKey W)). simpl in R2.
    assert (queues (workloadKey W) (P, None) r0 = false) as Hq0.
    { unfold queues; simpl. by destruct r0. }
    assert (queues (workloadKey W) (W, None) r1 = false) as Hq1.
    { unfold queues; simpl. rewrite HW. by destruct r1. }
    rewrite Hq0, Hq1 in R2.
    assert (workloadKey W ∈ deDuplica st') as Hin.
    { apply R1. right. exists 1, (W, None), r1. repeat split; [done..|].
      apply names_reserves. unfold names; simpl. rewrite HW. simpl.
      by rewrite bool_decide_eq_true_2. }
    rewrite bool_decide_eq_true_2 in R2 by (rewrite HD; set_solver). lia.
  - rewrite R5. simpl. unfold reference; simpl. rewrite HW.
    destruct r0; [|done]. destruct r1; by rewrite app_nil_r.
Qed.

End Further.

(** ** The further properties on the small cluster *)

Section FurtherOnTheCluster.

Import Demo.

Lemma first_resolution_error_is_fatal_witness :
  RunUndo pairCluster unresolvedOptions 0
  = (Returns (Some (Errorf "no such resource")), started unresolvedOptions 0).
Proof.
  apply (first_resolution_error_is_fatal pairCluster unresolvedOptions 0
           (Errorf "no such resource") 0).
  reflexivity.
Defined.

Lemma second_resolution_error_is_returned_alone_witness :
  (RunUndo pairCluster pairOptions 0).1 = Returns (Some (Errorf "no such resource")) ∧
  (VisitEach pairItems (visitor pairCluster pairOptions) (started pairOptions 0)).1 !! 0
    = Some (Some (Errorf "does not support dry run")).
Proof.
  pose (run := VisitEach pairItems (visitor pairCluster pairOptions) (started pairOptions 0)).
  destruct (second_resolution_error_is_returned_alone pairCluster pairOptions 0 pairItems 0
              run.1 run.2 (Errorf "no such resource") 0) as (Hrun & _);
    [reflexivity|apply surjective_pairing|by vm_compute|by vm_compute|].
  rewrite Hrun. split; [reflexivity|by vm_compute].
Defined.

Lemma second_visit_joins_or_panics_witness :
  (RunUndo rolloutCluster rolloutOptions 0).1 = Panics.
Proof.
  pose (run := VisitEach [(rolloutToCloneSet, None)] (visitor rolloutCluster rolloutOptions)
                         (started rolloutOptions 0)).
  pose (run2 := VisitEach [(cloneset "default" "abc", None)]
                          (undoFunc rolloutCluster rolloutOptions)
                          (restarted rolloutOptions run.2 0)).
  destruct (second_visit_joins_or_panics rolloutCluster rolloutOptions 0
              [(rolloutToCloneSet, None)] 0 run.1 run.2
              [(cloneset "default" "abc", None)] 0 run2.1 run2.2)
    as (_ & _ & Hpanic & _);
    [reflexivity|apply surjective_pairing|by vm_compute|by vm_compute
    |apply surjective_pairing|].
  apply Hpanic. left. replace run.1 with [@None error] by (by vm_compute).
  by repeat constructor.
Defined.

Lemma no_rollout_no_second_pass_witness :
  (RunUndo twiceCluster twiceOptions 0).1 = Returns None ∧
  requests (trace (RunUndo twiceCluster twiceOptions 0).2)
  = [request twiceOptions ["deployment/abc"; "deployment/abc"]].
Proof.
  destruct (no_rollout_no_second_pass twiceCluster twiceOptions 0 twiceItems 0)
    as (Hrun & _ & Hreq); [reflexivity| |by split].
  intros item Hin. unfold twiceItems in Hin. set_solver.
Defined.

Lemma second_request_carries_the_queue_witness :
  requests (trace (RunUndo rolloutCluster rolloutOptions 0).2)
  = [request rolloutOptions ["rollout/abc"];
     request rolloutOptions ["CloneSet.v1alpha1.apps.kruise.io/abc"]].
Proof.
  pose (run := VisitEach [(rolloutToCloneSet, None)] (visitor rolloutCluster rolloutOptions)
                         (started rolloutOptions 0)).
  destruct (second_request_carries_the_queue rolloutCluster rolloutOptions 0
              [(rolloutToCloneSet, None)] 0 run.1 run.2) as (_ & Hreq);
    [reflexivity|apply surjective_pairing|].
  rewrite Hreq. by vm_compute.
Defined.


Lemma reported_success_means_rolled_back_witness :
  rollbacks deploymentKey
    (trace (visitor twiceCluster twiceOptions (deployment "default" "abc") None (initial 0)).2)
  = 1.
Proof.
  destruct (reported_success_means_rolled_back twiceCluster twiceOptions
              (deployment "default" "abc") (initial 0)
              (visitor twiceCluster twiceOptions (deployment "default" "abc") None
                       (initial 0)).2) as (Hrb & _); [reflexivity|by vm_compute|].
  exact Hrb.
Defined.

Lemma malformed_rollout_changes_nothing_witness :
  (visitor twiceCluster twiceOptions emptyRollout None (initial 0)).1
  = Some (Errorf "Rollout object not found") ∧
  deDuplica (visitor twiceCluster twiceOptions emptyRollout None (initial 0)).2 = ∅.
Proof.
  destruct (malformed_rollout_changes_nothing twiceCluster twiceOptions emptyRollout
              (initial 0)
              (visitor twiceCluster twiceOptions emptyRollout None (initial 0)).1
              (visitor twiceCluster twiceOptions emptyRollout None (initial 0)).2)
    as (_ & lines & _ & Hst); [reflexivity|reflexivity|apply surjective_pairing|].
  split; [reflexivity|]. by rewrite Hst.
Defined.


Lemma kind_and_name_share_a_boundary_witness :
  (VisitEach shiftedItems (visitor twiceCluster twiceOptions) (initial 0)).1 !! 1
  = Some (Some errDuplicate).
Proof.
  pose (run := VisitEach shiftedItems (visitor twiceCluster twiceOptions) (initial 0)).
  destruct (kind_and_name_share_a_boundary twiceCluster twiceOptions shiftedItems (initial 0)
              run.1 run.2 0 1 (deployment "default" "sabc")
              (mkInfo (mkGVK "apps" "v1" "Deployments") "default" "abc"
                      (Some (OtherObject "Deployments"))) "s")
    as (_ & Hdup);
    [apply surjective_pairing|reflexivity..|lia|].
  exact Hdup.
Defined.

Lemma unprinted_rollout_is_not_reserved_witness :
  dispatches deploymentKey
    (trace (VisitEach bothItems (visitor muteCluster bothOptions) (initial 0)).2) = 1 ∧
  refResources (VisitEach bothItems (visitor muteCluster bothOptions) (initial 0)).2 = [].
Proof.
  pose (run := VisitEach bothItems (visitor muteCluster bothOptions) (initial 0)).
  destruct (unprinted_rollout_is_not_reserved muteCluster bothOptions rolloutToDeployment
              (deployment "default" "abc") (initial 0) run.1 run.2)
    as (Hd & Hrefs);
    [reflexivity|reflexivity|by vm_compute|reflexivity|apply surjective_pairing
    |by vm_compute|].
  split; [exact Hd|exact Hrefs].
Defined.

End FurtherOnTheCluster.
